(** * Validator: email, password and username checks

    A shallow embedding of [src/examples/python/validator.py] and the
    properties its specification states about it.

    Python strings are sequences of Unicode code points, and [len] counts
    code points, so a [str] is a list of code points here (not of bytes).
    The three methods of [Validator] are written in a small state and
    exception monad: the state is the receiver [self], whose attributes
    [EMAIL_PATTERN] and [MIN_PASSWORD_LENGTH] the methods read.

    The regular expressions are given as the parse trees Python's [re]
    builds for them, and run by a backtracking matcher for the fragment of
    [re] the module uses (anchors, literals, character sets, greedy
    repetition of a one-character item).

    Two tables of the Unicode database are not part of the repository:
    [str.isalpha] and the class [\d].  They are section variables. *)

From Stdlib Require Import List Bool Arith NArith ZArith Lia Btauto.
From Stdlib Require Import Ascii String DecimalString Permutation.
Import ListNotations.

Set Implicit Arguments.

(** ** Strings *)

Definition codepoint := N.

(** A Python [str]. *)
Definition str := list codepoint.

(** The code point of an ASCII character. *)
Definition cp (a : ascii) : codepoint := N_of_ascii a.

(** A string literal of the source; every literal of the module is ASCII. *)
Definition lit (s : string) : str := map cp (list_ascii_of_string s).

Definition newline : codepoint := 10%N.

(** [len(s)] *)
Definition len (s : str) : Z := Z.of_nat (List.length s).

(** Truth value of a string: [bool(s)], as in [if not s]. *)
Definition str_bool (s : str) : bool :=
  match s with
  | [] => false
  | _ :: _ => true
  end.

(** [str(n)] for an integer, as an f-string formats it. *)
Definition str_of_int (n : Z) : str := lit (NilEmpty.string_of_int (Z.to_int n)).

(** ** The fragment of [re] the module uses *)

Module re.

(** Parse trees, named after the opcodes of Python's regex parser. *)
Inductive set_item : Type :=
| CHAR (c : codepoint)                      (* a character in a set *)
| RANGE (lo hi : codepoint)                 (* lo-hi *)
| CATEGORY (member : codepoint -> bool).    (* a class such as \d *)

Inductive single : Type :=
| LITERAL (c : codepoint)                   (* x, or an escape such as \. *)
| IN (items : list set_item).               (* [...] *)

Inductive at_code : Type :=
| AT_BEGINNING                              (* ^ *)
| AT_END.                                   (* $ *)

Inductive node : Type :=
| AT (a : at_code)
| ONE (x : single)
| MAX_REPEAT (lo : nat) (hi : option nat) (x : single).  (* x{lo,hi}, greedy *)

Definition pattern := list node.

(** x+ , x* and x{n,} *)
Definition PLUS (x : single) : node := MAX_REPEAT 1 None x.
Definition STAR (x : single) : node := MAX_REPEAT 0 None x.
Definition AT_LEAST (n : nat) (x : single) : node := MAX_REPEAT n None x.

Definition item_mem (i : set_item) (c : codepoint) : bool :=
  match i with
  | CHAR d => N.eqb c d
  | RANGE lo hi => N.leb lo c && N.leb c hi
  | CATEGORY member => member c
  end.

Definition single_mem (x : single) (c : codepoint) : bool :=
  match x with
  | LITERAL d => N.eqb c d
  | IN items => existsb (fun i => item_mem i c) items
  end.

(** [$] without MULTILINE: at the end of the string, or just before a
    newline that is the last character of the string. *)
Definition at_end (s : str) : bool :=
  match s with
  | [] => true
  | [c] => N.eqb c newline
  | _ => false
  end.

Definition can_repeat (hi : option nat) : bool :=
  match hi with
  | None => true
  | Some 0 => false
  | Some (S _) => true
  end.

(** Greedy repetition of [x] followed by the continuation [k]: take one
    more character when possible, and fall back to [k] when the rest
    fails and the lower bound is already met.  [pos] is the index in the
    whole string at which [s] starts; the result is the end of the match. *)
Fixpoint repeat_then (x : single) (k : nat -> str -> option nat)
         (lo : nat) (hi : option nat) (pos : nat) (s : str) : option nat :=
  let stop := if Nat.eqb lo 0 then k pos s else None in
  match s with
  | [] => stop
  | c :: s' =>
      if can_repeat hi && single_mem x c then
        match repeat_then x k (pred lo) (option_map pred hi) (S pos) s' with
        | Some e => Some e
        | None => stop
        end
      else stop
  end.

(** Run pattern [p] on [s], which starts at index [pos] of the subject. *)
Fixpoint exec (p : pattern) (pos : nat) (s : str) : option nat :=
  match p with
  | [] => Some pos
  | AT AT_BEGINNING :: p' => if Nat.eqb pos 0 then exec p' pos s else None
  | AT AT_END :: p' => if at_end s then exec p' pos s else None
  | ONE x :: p' =>
      match s with
      | c :: s' => if single_mem x c then exec p' (S pos) s' else None
      | [] => None
      end
  | MAX_REPEAT lo hi x :: p' => repeat_then x (exec p') lo hi pos s
  end.

(** *** Reading a pattern

    [compile] reads the text of a pattern of the fragment into its parse
    tree, and gives [None] on anything outside the fragment (groups,
    alternation, [.], lazy or optional repetition, negated sets, other
    escapes).  In a Rocq string, as in a raw Python string, a backslash is
    an ordinary character. *)

Definition is_char (c : ascii) (s : string) : bool := String.eqb (String c EmptyString) s.

Definition cons_fst {A B} (a : A) (r : option (list A * B)) : option (list A * B) :=
  match r with
  | Some (l, b) => Some (a :: l, b)
  | None => None
  end.

(** The items of a set after its opening bracket, and the text after the
    closing bracket.  A hyphen between two characters makes a range; a
    hyphen just before the closing bracket stands for itself. *)
Fixpoint parse_set (digits : codepoint -> bool) (cs : list ascii)
  : option (list set_item * list ascii) :=
  match cs with
  | [] => None
  | c :: rest =>
      if is_char c "]" then Some ([], rest)
      else if is_char c "\" then
        match rest with
        | d :: rest' =>
            if is_char d "d" then cons_fst (CATEGORY digits) (parse_set digits rest')
            else None
        | [] => None
        end
      else
        match rest with
        | dash :: hi :: rest' =>
            if is_char dash "-" && negb (is_char hi "]") then
              if is_char hi "\" || negb (N.leb (cp c) (cp hi)) then None
              else cons_fst (RANGE (cp c) (cp hi)) (parse_set digits rest')
            else cons_fst (CHAR (cp c)) (parse_set digits rest)
        | _ => cons_fst (CHAR (cp c)) (parse_set digits rest)
        end
  end.

(** An item that matches one character, whose text starts with [c]. *)
Definition parse_single (digits : codepoint -> bool) (c : ascii) (rest : list ascii)
  : option (single * list ascii) :=
  if is_char c "[" then
    match rest with
    | c' :: _ =>
        if is_char c' "^" || is_char c' "]" then None
        else
          match parse_set digits rest with
          | Some (items, rest') => Some (IN items, rest')
          | None => None
          end
    | [] => None
    end
  else if is_char c "\" then
    match rest with
    | e :: rest' =>
        if is_char e "." then Some (LITERAL (cp "."), rest')
        else if is_char e "d" then Some (IN [CATEGORY digits], rest')
        else None
    | [] => None
    end
  else if existsb (is_char c) ["."; "("; ")"; "|"; "?"; "*"; "+"; "{"; "}"; "]"]%string
  then None
  else Some (LITERAL (cp c), rest).

(** A decimal number at the head of the text. *)
Fixpoint parse_number (acc : option nat) (cs : list ascii) : option nat * list ascii :=
  match cs with
  | c :: rest =>
      let d := nat_of_ascii c - 48 in
      if Nat.leb 48 (nat_of_ascii c) && Nat.leb (nat_of_ascii c) 57 then
        parse_number (Some (10 * match acc with Some n => n | None => 0 end + d)) rest
      else (acc, cs)
  | [] => (acc, cs)
  end.

(** The repetition that follows an item, if any: [+], [*] or [{n,}]. *)
Definition parse_repeat (x : single) (cs : list ascii) : option (node * list ascii) :=
  match cs with
  | [] => Some (ONE x, [])
  | q :: rest =>
      if is_char q "+" then Some (PLUS x, rest)
      else if is_char q "*" then Some (STAR x, rest)
      else if is_char q "?" then None
      else if is_char q "{" then
        match parse_number None rest with
        | (Some n, comma :: close :: rest') =>
            if is_char comma "," && is_char close "}" then Some (AT_LEAST n x, rest')
            else None
        | _ => None
        end
      else Some (ONE x, cs)
  end.

Definition cons_opt {A} (a : A) (r : option (list A)) : option (list A) :=
  match r with
  | Some l => Some (a :: l)
  | None => None
  end.

Fixpoint parse (fuel : nat) (digits : codepoint -> bool) (cs : list ascii)
  : option pattern :=
  match fuel with
  | 0 => None
  | S fuel' =>
      match cs with
      | [] => Some []
      | c :: rest =>
          if is_char c "^" then cons_opt (AT AT_BEGINNING) (parse fuel' digits rest)
          else if is_char c "$" then cons_opt (AT AT_END) (parse fuel' digits rest)
          else
            match parse_single digits c rest with
            | Some (x, rest1) =>
                match parse_repeat x rest1 with
                | Some (n, rest2) =>
                    (* a repetition may not be followed by ?, + or another one *)
                    match rest2, n with
                    | q :: _, MAX_REPEAT _ _ _ =>
                        if existsb (is_char q) ["?"; "+"; "*"; "{"]%string then None
                        else cons_opt n (parse fuel' digits rest2)
                    | _, _ => cons_opt n (parse fuel' digits rest2)
                    end
                | None => None
                end
            | None => None
            end
      end
  end.

(** [re.compile(text)], for a [str] pattern without flags; [digits] is the
    class [\d]. *)
Definition compile (digits : codepoint -> bool) (text : string) : option pattern :=
  parse (S (String.length text)) digits (list_ascii_of_string text).

(** A match object: the span of the match. *)
Record Match : Type := { m_start : nat; m_end : nat }.

Fixpoint search_from (p : pattern) (pos : nat) (s : str) : option Match :=
  match exec p pos s with
  | Some e => Some {| m_start := pos; m_end := e |}
  | None =>
      match s with
      | [] => None
      | _ :: s' => search_from p (S pos) s'
      end
  end.

(** [re.match(p, s)]: a match starting at index 0, or [None]. *)
Definition match_ (p : pattern) (s : str) : option Match :=
  option_map (fun e => {| m_start := 0; m_end := e |}) (exec p 0 s).

(** [re.search(p, s)]: the leftmost match, or [None]. *)
Definition search (p : pattern) (s : str) : option Match := search_from p 0 s.

(** [bool(m)] for the result of [match] or [search]: a match object is
    always true, [None] is false. *)
Definition bool_ (m : option Match) : bool :=
  match m with
  | Some _ => true
  | None => false
  end.

(** An upper bound of a repetition. *)
Definition within (hi : option nat) (n : nat) : Prop :=
  match hi with
  | None => True
  | Some h => n <= h
  end.

(** What it means for [p] to match a prefix of [s], read off the pattern:
    the declarative counterpart of [exec]. *)
Fixpoint accepts (p : pattern) (pos : nat) (s : str) : Prop :=
  match p with
  | [] => True
  | AT AT_BEGINNING :: p' => pos = 0 /\ accepts p' pos s
  | AT AT_END :: p' => (s = [] \/ s = [newline]) /\ accepts p' pos s
  | ONE x :: p' =>
      exists c s', s = c :: s' /\ single_mem x c = true /\ accepts p' (S pos) s'
  | MAX_REPEAT lo hi x :: p' =>
      exists w s',
        s = w ++ s' /\ forallb (single_mem x) w = true /\
        lo <= List.length w /\ within hi (List.length w) /\
        accepts p' (pos + List.length w) s'
  end.

End re.

(** ** The object and the monad of its methods *)

(** The attributes a method reads through [self]. *)
Record Validator : Type := {
  EMAIL_PATTERN : re.pattern;
  MIN_PASSWORD_LENGTH : Z
}.

Inductive exn : Type :=
| IndexError.

Inductive outcome (A : Type) : Type :=
| Return (a : A)
| Raise (e : exn).
Arguments Return {A} a.
Arguments Raise {A} e.

(** A method body: it runs on the receiver and gives an outcome and the
    receiver as the body leaves it. *)
Definition Py (A : Type) : Type := Validator -> outcome A * Validator.

Definition ret {A} (a : A) : Py A := fun self => (Return a, self).

Definition raise {A} (e : exn) : Py A := fun self => (Raise e, self).

Definition bind {A B} (m : Py A) (f : A -> Py B) : Py B :=
  fun self =>
    match m self with
    | (Return a, self') => f a self'
    | (Raise e, self') => (Raise e, self')
    end.

(** [self.attr] *)
Definition getattr {A} (attr : Validator -> A) : Py A :=
  fun self => (Return (attr self), self).

Notation "x <- m ;; k" := (bind m (fun x => k))
  (at level 61, m at next level, right associativity).

(** [s[i]] for [i >= 0]: a string of one character, or IndexError. *)
Definition getitem (s : str) (i : nat) : Py str :=
  match nth_error s i with
  | Some c => ret [c]
  | None => raise IndexError
  end.

(** ** The class [Validator] *)

Module Pattern.
Import re.

Definition lower : set_item := RANGE (cp "a") (cp "z").
Definition upper : set_item := RANGE (cp "A") (cp "Z").
Definition digit09 : set_item := RANGE (cp "0") (cp "9").

(** [[a-zA-Z0-9._%+-]] *)
Definition local_set : single :=
  IN [lower; upper; digit09; CHAR (cp "."); CHAR (cp "_"); CHAR (cp "%");
      CHAR (cp "+"); CHAR (cp "-")].

(** [[a-zA-Z0-9.-]] *)
Definition domain_set : single :=
  IN [lower; upper; digit09; CHAR (cp "."); CHAR (cp "-")].

(** [[a-zA-Z]] *)
Definition letter_set : single := IN [lower; upper].

(** [[a-zA-Z0-9_-]] *)
Definition word_set : single :=
  IN [lower; upper; digit09; CHAR (cp "_"); CHAR (cp "-")].

(** [r"^[a-zA-Z0-9._%+-]+@[a-zA-Z0-9.-]+\.[a-zA-Z]{2,}$"] *)
Definition email : pattern :=
  [AT AT_BEGINNING; PLUS local_set; ONE (LITERAL (cp "@")); PLUS domain_set;
   ONE (LITERAL (cp ".")); AT_LEAST 2 letter_set; AT AT_END].

(** [r"[A-Z]"] *)
Definition has_upper : pattern := [ONE (IN [upper])].

(** [r"[a-z]"] *)
Definition has_lower : pattern := [ONE (IN [lower])].

(** [r"\d"], over the table of the class [\d]. *)
Definition has_digit (isdecimal : codepoint -> bool) : pattern :=
  [ONE (IN [CATEGORY isdecimal])].

(** [r"^[a-zA-Z][a-zA-Z0-9_-]*$"] *)
Definition username : pattern :=
  [AT AT_BEGINNING; ONE letter_set; STAR word_set; AT AT_END].

End Pattern.

(** The object [Validator()]: its attributes are the class attributes. *)
Definition Validator_new : Validator :=
  {| EMAIL_PATTERN := Pattern.email;
     MIN_PASSWORD_LENGTH := 8 |}.

(** The result of calling a method on [Validator()]. *)
Definition call {A} (m : Py A) : outcome A := fst (m Validator_new).

Section Methods.

(** [c.isalpha()] for one code point, and membership in the class [\d]
    of a [str] pattern (the characters for which [str.isdecimal] holds). *)
Variable isalpha : codepoint -> bool.
Variable isdecimal : codepoint -> bool.

(** [s.isalpha()]: at least one character, and all of them alphabetic. *)
Definition str_isalpha (s : str) : bool := str_bool s && forallb isalpha s.

Definition validate_email (email : str) : Py bool :=
  if negb (str_bool email) then ret false
  else
    pat <- getattr EMAIL_PATTERN ;;
    ret (re.bool_ (re.match_ pat email)).

Definition validate_password (password : str) : Py (bool * str) :=
  if negb (str_bool password) then ret (false, lit "Password cannot be empty")
  else
    n <- getattr MIN_PASSWORD_LENGTH ;;
    if (len password <? n)%Z then
      n' <- getattr MIN_PASSWORD_LENGTH ;;
      ret (false,
           lit "Password must be at least " ++ str_of_int n' ++ lit " characters")
    else if negb (re.bool_ (re.search Pattern.has_upper password)) then
      ret (false, lit "Password must contain at least one uppercase letter")
    else if negb (re.bool_ (re.search Pattern.has_lower password)) then
      ret (false, lit "Password must contain at least one lowercase letter")
    else if negb (re.bool_ (re.search (Pattern.has_digit isdecimal) password)) then
      ret (false, lit "Password must contain at least one digit")
    else
      ret (true, lit "Password is valid").

Definition validate_username (username : str) : Py bool :=
  if negb (str_bool username) then ret false
  else if (len username <? 3)%Z || (len username >? 20)%Z then ret false
  else
    first <- getitem username 0 ;;
    if negb (str_isalpha first) then ret false
    else ret (re.bool_ (re.match_ Pattern.username username)).

(** The variant of [validate_username] without the test of
    [username[0].isalpha()], which the specification calls redundant. *)
Definition validate_username_collapsed (username : str) : Py bool :=
  if negb (str_bool username) then ret false
  else if (len username <? 3)%Z || (len username >? 20)%Z then ret false
  else ret (re.bool_ (re.match_ Pattern.username username)).

End Methods.

(** ** The specification's reading of the rules *)

Module Spec.

Definition between (lo hi : ascii) (c : codepoint) : bool :=
  N.leb (cp lo) c && N.leb c (cp hi).

(** [A]-[Z], [a]-[z], and the letters [A-Za-z]. *)
Definition is_upper (c : codepoint) : bool := between "A" "Z" c.
Definition is_lower (c : codepoint) : bool := between "a" "z" c.
Definition is_letter (c : codepoint) : bool := is_upper c || is_lower c.
Definition is_digit09 (c : codepoint) : bool := between "0" "9" c.

Definition one_of (cs : string) (c : codepoint) : bool := existsb (N.eqb c) (lit cs).

(** [[A-Za-z0-9._%+-]], [[A-Za-z0-9.-]] and [[A-Za-z0-9_-]]. *)
Definition local_char (c : codepoint) : bool :=
  is_letter c || is_digit09 c || one_of "._%+-" c.
Definition domain_char (c : codepoint) : bool :=
  is_letter c || is_digit09 c || one_of ".-" c.
Definition word_char (c : codepoint) : bool :=
  is_letter c || is_digit09 c || one_of "_-" c.

(** The whole string is: one or more local characters, [@], one or more
    domain characters, a dot, two or more letters. *)
Definition email_shape (s : str) : Prop :=
  exists l d t,
    s = l ++ cp "@" :: d ++ cp "." :: t /\
    1 <= List.length l /\ forallb local_char l = true /\
    1 <= List.length d /\ forallb domain_char d = true /\
    2 <= List.length t /\ forallb is_letter t = true.

(** The whole string is a letter followed by any number of letters,
    digits, underscores and hyphens. *)
Definition username_shape (s : str) : bool :=
  match s with
  | [] => false
  | c :: rest => is_letter c && forallb word_char rest
  end.

(** The rules of a password in their priority order, each with the reason
    given when it is the first to fail. *)
Definition password_rules (isdecimal : codepoint -> bool) : list ((str -> bool) * str) :=
  [ (fun s => Nat.eqb (List.length s) 0,
     lit "Password cannot be empty");
    (fun s => Nat.ltb (List.length s) 8,
     lit "Password must be at least 8 characters");
    (fun s => negb (existsb is_upper s),
     lit "Password must contain at least one uppercase letter");
    (fun s => negb (existsb is_lower s),
     lit "Password must contain at least one lowercase letter");
    (fun s => negb (existsb isdecimal s),
     lit "Password must contain at least one digit") ].

Fixpoint first_failure (rules : list ((str -> bool) * str)) (s : str) : option str :=
  match rules with
  | [] => None
  | (fails, reason) :: rules' =>
      if fails s then Some reason else first_failure rules' s
  end.

Definition password_result (isdecimal : codepoint -> bool) (s : str) : bool * str :=
  match first_failure (password_rules isdecimal) s with
  | Some reason => (false, reason)
  | None => (true, lit "Password is valid")
  end.

(** The five messages of a rejected password, and the one of a valid one. *)
Definition reasons : list str :=
  [ lit "Password cannot be empty";
    lit "Password must be at least 8 characters";
    lit "Password must contain at least one uppercase letter";
    lit "Password must contain at least one lowercase letter";
    lit "Password must contain at least one digit";
    lit "Password is valid" ].

End Spec.

(** Tables that know the letters and digits of ASCII only: enough to run
    the methods on ASCII subjects. *)
Definition ascii_isalpha (c : codepoint) : bool := Spec.is_letter c.

Definition ascii_isdecimal (c : codepoint) : bool := Spec.is_digit09 c.

(** Two calls of a method one after the other on the same receiver, the
    second on the receiver as the first left it: both outcomes. *)
Definition twice {A} (m : Py A) (self : Validator) : outcome A * outcome A :=
  let (r1, self1) := m self in
  let (r2, _) := m self1 in
  (r1, r2).

(** The methods on a list of ASCII literals, as the test suite calls them. *)
Definition emails (l : list string) : list (outcome bool) :=
  map (fun s => call (validate_email (lit s))) l.

Definition passwords (l : list string) : list (outcome (bool * str)) :=
  map (fun s => call (validate_password ascii_isdecimal (lit s))) l.

Definition usernames (l : list string) : list (outcome bool) :=
  map (fun s => call (validate_username ascii_isalpha (lit s))) l.

(** * Properties *)

(** ** The matcher *)

Module re_facts.
Import re.

Lemma repeat_then_accepts (x : single) (k : nat -> str -> option nat) :
  forall s lo hi pos,
    repeat_then x k lo hi pos s <> None <->
    exists w r,
      s = w ++ r /\ forallb (single_mem x) w = true /\
      lo <= List.length w /\ within hi (List.length w) /\
      k (pos + List.length w) r <> None.
Proof.
  induction s as [|c s IH]; intros lo hi pos; simpl.
  - split.
    + destruct (Nat.eqb_spec lo 0) as [->|]; [|congruence].
      intros Hk. exists [], []. simpl. rewrite Nat.add_0_r.
      repeat split; auto. destruct hi; simpl; lia.
    + intros (w & r & Hs & _ & Hlo & _ & Hk).
      symmetry in Hs. apply app_eq_nil in Hs. destruct Hs as [-> ->].
      simpl in *. rewrite Nat.add_0_r in Hk.
      destruct (Nat.eqb_spec lo 0); [assumption|lia].
  - split.
    + intros H.
      destruct (can_repeat hi && single_mem x c) eqn:Hc.
      * destruct (repeat_then x k (pred lo) (option_map pred hi) (S pos) s) eqn:Hr.
        -- assert (Hr' : repeat_then x k (pred lo) (option_map pred hi) (S pos) s <> None)
             by congruence.
           apply IH in Hr'. destruct Hr' as (w & r & -> & Hw & Hlo & Hhi & Hk).
           apply andb_prop in Hc. destruct Hc as [Hcan Hmem].
           exists (c :: w), r. simpl. rewrite Hmem, Hw.
           rewrite Nat.add_succ_r. repeat split; auto; try lia.
           destruct hi as [[|h]|]; simpl in *; try discriminate; auto; lia.
        -- destruct (Nat.eqb_spec lo 0) as [->|]; [|congruence].
           exists [], (c :: s). simpl. rewrite Nat.add_0_r.
           repeat split; auto. destruct hi; simpl; lia.
      * destruct (Nat.eqb_spec lo 0) as [->|]; [|congruence].
        exists [], (c :: s). simpl. rewrite Nat.add_0_r.
        repeat split; auto. destruct hi; simpl; lia.
    + intros (w & r & Hs & Hw & Hlo & Hhi & Hk).
      destruct w as [|c' w]; simpl in *.
      * rewrite Nat.add_0_r in Hk. subst r.
        assert (lo = 0) by lia. subst lo. simpl.
        destruct (can_repeat hi && single_mem x c); [|assumption].
        destruct (repeat_then x k 0 (option_map pred hi) (S pos) s); congruence.
      * injection Hs as <- ->.
        apply andb_prop in Hw. destruct Hw as [Hmem Hw].
        assert (Hcan : can_repeat hi = true).
        { destruct hi as [[|h]|]; simpl in *; auto; lia. }
        rewrite Hcan, Hmem. simpl.
        assert (Hr : repeat_then x k (pred lo) (option_map pred hi) (S pos) (w ++ r) <> None).
        { apply IH. exists w, r. rewrite Nat.add_succ_r in Hk.
          repeat split; auto; try lia.
          destruct hi as [[|h]|]; simpl in *; auto; lia. }
        destruct (repeat_then x k (pred lo) (option_map pred hi) (S pos) (w ++ r));
          congruence.
Qed.

Lemma at_end_iff (s : str) : at_end s = true <-> s = [] \/ s = [newline].
Proof.
  destruct s as [|c [|d s]]; simpl; split; auto; try discriminate.
  - intros H. apply N.eqb_eq in H. subst. auto.
  - intros [H|H]; [discriminate|]. injection H as ->. reflexivity.
  - intros [H|H]; discriminate.
Qed.

(** [exec] finds a match exactly when the pattern accepts. *)
Lemma exec_accepts :
  forall p pos s, exec p pos s <> None <-> accepts p pos s.
Proof.
  induction p as [|n p IH]; intros pos s; simpl.
  - split; [auto|discriminate].
  - destruct n as [[|]|x|lo hi x].
    + destruct (Nat.eqb_spec pos 0) as [->|Hne].
      * rewrite IH. tauto.
      * split; [congruence|]. intros [H _]. contradiction.
    + destruct (at_end s) eqn:He.
      * rewrite IH. apply at_end_iff in He. tauto.
      * split; [congruence|]. intros [H _]. apply at_end_iff in H. congruence.
    + destruct s as [|c s].
      * split; [congruence|]. intros (c & s' & H & _). discriminate.
      * destruct (single_mem x c) eqn:Hm.
        -- rewrite IH. split.
           ++ intros H. exists c, s. auto.
           ++ intros (c' & s' & Hs & _ & H). injection Hs as <- <-. assumption.
        -- split; [congruence|].
           intros (c' & s' & Hs & Hm' & _). injection Hs as <- <-. congruence.
    + rewrite repeat_then_accepts. split.
      * intros (w & r & Hs & Hw & Hlo & Hhi & Hk).
        exists w, r. rewrite <- IH. auto.
      * intros (w & r & Hs & Hw & Hlo & Hhi & Hk).
        exists w, r. rewrite IH. auto.
Qed.

Lemma match_accepts (p : pattern) (s : str) :
  bool_ (match_ p s) = true <-> accepts p 0 s.
Proof.
  rewrite <- exec_accepts. unfold match_.
  destruct (exec p 0 s); simpl; split; congruence.
Qed.

(** Searching for one character of a set finds one exactly when the
    string has one. *)
Lemma search_one (x : single) :
  forall s pos, bool_ (search_from [ONE x] pos s) = existsb (single_mem x) s.
Proof.
  induction s as [|c s IH]; intros pos; simpl; [reflexivity|].
  destruct (single_mem x c); simpl; [reflexivity|]. apply IH.
Qed.

End re_facts.

(** ** The patterns of the class against the specification's wording *)

Module Pattern_facts.
Import re re_facts.

Lemma forallb_eq {A} (f g : A -> bool) :
  (forall a, f a = g a) -> forall l, forallb f l = forallb g l.
Proof.
  intros H l. induction l as [|a l IH]; simpl; [reflexivity|].
  rewrite H, IH. reflexivity.
Qed.

Lemma existsb_eq {A} (f g : A -> bool) :
  (forall a, f a = g a) -> forall l, existsb f l = existsb g l.
Proof.
  intros H l. induction l as [|a l IH]; simpl; [reflexivity|].
  rewrite H, IH. reflexivity.
Qed.

Ltac class_eq :=
  intros c; unfold Spec.local_char, Spec.domain_char, Spec.word_char,
    Spec.is_letter, Spec.is_upper, Spec.is_lower, Spec.is_digit09,
    Spec.one_of, Spec.between; cbn;
  generalize (N.leb 97 c) (N.leb c 122) (N.leb 65 c) (N.leb c 90)
             (N.leb 48 c) (N.leb c 57)
             (N.eqb c 46) (N.eqb c 95) (N.eqb c 37) (N.eqb c 43) (N.eqb c 45);
  intros; btauto.

Lemma local_set_mem : forall c, single_mem Pattern.local_set c = Spec.local_char c.
Proof. class_eq. Qed.

Lemma domain_set_mem : forall c, single_mem Pattern.domain_set c = Spec.domain_char c.
Proof. class_eq. Qed.

Lemma letter_set_mem : forall c, single_mem Pattern.letter_set c = Spec.is_letter c.
Proof. class_eq. Qed.

Lemma word_set_mem : forall c, single_mem Pattern.word_set c = Spec.word_char c.
Proof. class_eq. Qed.

Lemma upper_mem : forall c, single_mem (IN [Pattern.upper]) c = Spec.is_upper c.
Proof. class_eq. Qed.

Lemma lower_mem : forall c, single_mem (IN [Pattern.lower]) c = Spec.is_lower c.
Proof. class_eq. Qed.

(** The parse trees of [Pattern] are those of the pattern texts in the
    source. *)
Lemma compile_email (digits : codepoint -> bool) :
  compile digits "^[a-zA-Z0-9._%+-]+@[a-zA-Z0-9.-]+\.[a-zA-Z]{2,}$" = Some Pattern.email.
Proof. reflexivity. Qed.

Lemma compile_username (digits : codepoint -> bool) :
  compile digits "^[a-zA-Z][a-zA-Z0-9_-]*$" = Some Pattern.username.
Proof. reflexivity. Qed.

Lemma compile_has_upper (digits : codepoint -> bool) :
  compile digits "[A-Z]" = Some Pattern.has_upper.
Proof. reflexivity. Qed.

Lemma compile_has_lower (digits : codepoint -> bool) :
  compile digits "[a-z]" = Some Pattern.has_lower.
Proof. reflexivity. Qed.

Lemma compile_has_digit (digits : codepoint -> bool) :
  compile digits "\d" = Some (Pattern.has_digit digits).
Proof. reflexivity. Qed.

(** What the email pattern accepts at index 0: a string of the shape the
    specification gives, or such a string followed by one newline. *)
Lemma email_accepts (s : str) :
  accepts Pattern.email 0 s <->
  Spec.email_shape s \/ exists s0, s = s0 ++ [newline] /\ Spec.email_shape s0.
Proof.
  unfold Pattern.email, PLUS, AT_LEAST. simpl. split.
  - intros (_ & l & r1 & -> & Hl & Hl1 & _ & c1 & r2 & -> & Hc1 & d & r3 & -> & Hd & Hd1 & _
            & c2 & r4 & -> & Hc2 & t & r5 & -> & Ht & Ht2 & _ & Hend & _).
    apply N.eqb_eq in Hc1, Hc2. subst c1 c2.
    rewrite (forallb_eq _ _ local_set_mem) in Hl.
    rewrite (forallb_eq _ _ domain_set_mem) in Hd.
    rewrite (forallb_eq _ _ letter_set_mem) in Ht.
    assert (Hshape : Spec.email_shape (l ++ cp "@" :: d ++ cp "." :: t)).
    { exists l, d, t. repeat split; assumption. }
    destruct Hend as [-> | ->].
    + left. rewrite app_nil_r. assumption.
    + right. exists (l ++ cp "@" :: d ++ cp "." :: t). split; [|assumption].
      rewrite <- !app_assoc. simpl. rewrite <- !app_assoc. reflexivity.
  - assert (Hshape : forall s0 tail, Spec.email_shape s0 ->
              tail = [] \/ tail = [newline] ->
              0 = 0 /\ exists w r1, s0 ++ tail = w ++ r1 /\
                forallb (single_mem Pattern.local_set) w = true /\
                1 <= List.length w /\ True /\
                exists c1 r2, r1 = c1 :: r2 /\ N.eqb c1 (cp "@") = true /\
                exists w2 r3, r2 = w2 ++ r3 /\
                  forallb (single_mem Pattern.domain_set) w2 = true /\
                  1 <= List.length w2 /\ True /\
                  exists c2 r4, r3 = c2 :: r4 /\ N.eqb c2 (cp ".") = true /\
                  exists w3 r5, r4 = w3 ++ r5 /\
                    forallb (single_mem Pattern.letter_set) w3 = true /\
                    2 <= List.length w3 /\ True /\
                    (r5 = [] \/ r5 = [newline]) /\ True).
    { intros s0 tail (l & d & t & -> & Hl1 & Hl & Hd1 & Hd & Ht2 & Ht) Htail.
      split; [reflexivity|].
      exists l, (cp "@" :: d ++ cp "." :: t ++ tail). split.
      { rewrite <- !app_assoc. simpl. rewrite <- !app_assoc. reflexivity. }
      rewrite (forallb_eq _ _ local_set_mem). repeat split; auto.
      exists (cp "@"), (d ++ cp "." :: t ++ tail). repeat split; auto.
      exists d, (cp "." :: t ++ tail). split; [reflexivity|].
      rewrite (forallb_eq _ _ domain_set_mem). repeat split; auto.
      exists (cp "."), (t ++ tail). repeat split; auto.
      exists t, tail. rewrite (forallb_eq _ _ letter_set_mem). repeat split; auto. }
    intros [H | (s0 & -> & H)].
    + rewrite <- (app_nil_r s). apply Hshape; auto.
    + apply Hshape; auto.
Qed.

(** What the username pattern accepts at index 0. *)
Lemma username_accepts (s : str) :
  accepts Pattern.username 0 s <->
  Spec.username_shape s = true \/
  exists s0, s = s0 ++ [newline] /\ Spec.username_shape s0 = true.
Proof.
  unfold Pattern.username, STAR. cbn [accepts within]. split.
  - intros (_ & c & r1 & -> & Hc & w & r2 & -> & Hw & _ & _ & Hend & _).
    rewrite letter_set_mem in Hc.
    rewrite (forallb_eq _ _ word_set_mem) in Hw.
    destruct Hend as [-> | ->].
    + left. rewrite app_nil_r. simpl. rewrite Hc, Hw. reflexivity.
    + right. exists (c :: w). split; [reflexivity|].
      simpl. rewrite Hc, Hw. reflexivity.
  - assert (Hshape : forall s0 tail, Spec.username_shape s0 = true ->
              tail = [] \/ tail = [newline] ->
              0 = 0 /\ exists c r1, s0 ++ tail = c :: r1 /\
                single_mem Pattern.letter_set c = true /\
                exists w r2, r1 = w ++ r2 /\
                  forallb (single_mem Pattern.word_set) w = true /\
                  0 <= List.length w /\ True /\ (r2 = [] \/ r2 = [newline]) /\ True).
    { intros [|c rest] tail H Htail; simpl in H; [discriminate|].
      apply andb_prop in H. destruct H as [Hc Hw].
      split; [reflexivity|]. exists c, (rest ++ tail). split; [reflexivity|].
      rewrite letter_set_mem. split; [assumption|].
      exists rest, tail. rewrite (forallb_eq _ _ word_set_mem).
      repeat split; auto. lia. }
    intros [H | (s0 & -> & H)].
    + rewrite <- (app_nil_r s). apply Hshape; auto.
    + apply Hshape; auto.
Qed.

End Pattern_facts.

(** ** The methods *)

Section Properties.

Variable isalpha : codepoint -> bool.
Variable isdecimal : codepoint -> bool.

(** [str.isalpha] holds of the ASCII letters. *)
Hypothesis isalpha_ascii : forall c, Spec.is_letter c = true -> isalpha c = true.

Import re re_facts Pattern_facts.

Lemma digit_mem :
  forall c, single_mem (IN [CATEGORY isdecimal]) c = isdecimal c.
Proof. intros c. simpl. apply orb_false_r. Qed.

Lemma len_lt (s : str) (n : nat) :
  (len s <? Z.of_nat n)%Z = Nat.ltb (List.length s) n.
Proof.
  unfold len. destruct (Nat.ltb_spec (List.length s) n);
    [apply Z.ltb_lt | apply Z.ltb_ge]; lia.
Qed.

Lemma len_gt (s : str) (n : nat) :
  (len s >? Z.of_nat n)%Z = Nat.ltb n (List.length s).
Proof.
  unfold len. rewrite Z.gtb_ltb. destruct (Nat.ltb_spec n (List.length s));
    [apply Z.ltb_lt | apply Z.ltb_ge]; lia.
Qed.

Lemma Return_eq {A} (a b : A) : Return a = Return b <-> a = b.
Proof. split; congruence. Qed.

(** *** Each method returns, and leaves the receiver as it was *)

Lemma validate_email_returns (s : str) (self : Validator) :
  exists b, validate_email s self = (Return b, self).
Proof.
  unfold validate_email. destruct (negb (str_bool s)); eexists; reflexivity.
Qed.

Lemma validate_password_returns (s : str) (self : Validator) :
  exists r, validate_password isdecimal s self = (Return r, self).
Proof.
  unfold validate_password. destruct (negb (str_bool s)); [eexists; reflexivity|].
  unfold bind, getattr.
  repeat match goal with
         | |- context [if ?b then _ else _] => destruct b
         end; eexists; reflexivity.
Qed.

Lemma validate_username_returns (s : str) (self : Validator) :
  exists b, validate_username isalpha s self = (Return b, self).
Proof.
  unfold validate_username. destruct s as [|c s]; [eexists; reflexivity|].
  cbn [str_bool negb getitem nth_error].
  destruct ((len (c :: s) <? 3)%Z || (len (c :: s) >? 20)%Z); [eexists; reflexivity|].
  unfold bind, ret. destruct (negb (str_isalpha isalpha [c])); eexists; reflexivity.
Qed.

Lemma twice_same {A} (m : Py A) (self : Validator) :
  (exists a, m self = (Return a, self)) -> exists r, twice m self = (r, r).
Proof.
  intros [a H]. exists (Return a). unfold twice. rewrite H, H. reflexivity.
Qed.

(** *** What each method computes on [Validator()] *)

Lemma validate_email_call (s : str) :
  call (validate_email s) = Return (bool_ (match_ Pattern.email s)).
Proof. destruct s; reflexivity. Qed.

Lemma validate_email_true (s : str) :
  call (validate_email s) = Return true <->
  Spec.email_shape s \/ exists s0, s = s0 ++ [newline] /\ Spec.email_shape s0.
Proof.
  rewrite validate_email_call, <- email_accepts, <- match_accepts.
  split; [congruence|]. intros ->. reflexivity.
Qed.

Lemma validate_password_call (s : str) :
  call (validate_password isdecimal s) = Return (Spec.password_result isdecimal s).
Proof.
  destruct s as [|c s]; [reflexivity|].
  unfold call, validate_password, Spec.password_result, Spec.password_rules,
    Spec.first_failure.
  cbn [str_bool negb]. unfold bind, getattr.
  cbn [MIN_PASSWORD_LENGTH Validator_new].
  change 8%Z with (Z.of_nat 8) at 1. rewrite len_lt.
  replace (Nat.eqb (List.length (c :: s)) 0) with false by reflexivity.
  unfold search, Pattern.has_upper, Pattern.has_lower, Pattern.has_digit.
  rewrite !search_one.
  rewrite (existsb_eq _ _ upper_mem), (existsb_eq _ _ lower_mem),
    (existsb_eq _ _ digit_mem).
  destruct (Nat.ltb (List.length (c :: s)) 8); [reflexivity|].
  destruct (existsb Spec.is_upper (c :: s)); [|reflexivity].
  destruct (existsb Spec.is_lower (c :: s)); [|reflexivity].
  destruct (existsb isdecimal (c :: s)); reflexivity.
Qed.

Lemma validate_username_call (s : str) :
  call (validate_username isalpha s) =
  Return (Nat.leb 3 (List.length s) && Nat.leb (List.length s) 20 &&
          isalpha (hd 0%N s) && bool_ (match_ Pattern.username s)).
Proof.
  destruct s as [|c s]; [reflexivity|].
  unfold call, validate_username. cbn [str_bool negb getitem nth_error hd].
  change 3%Z with (Z.of_nat 3). change 20%Z with (Z.of_nat 20).
  rewrite len_lt, len_gt, !Nat.ltb_antisym.
  destruct (Nat.leb 3 (List.length (c :: s))); [|reflexivity].
  destruct (Nat.leb (List.length (c :: s)) 20); [|reflexivity].
  cbn [negb orb andb]. unfold bind, ret, str_isalpha.
  cbn [str_bool forallb andb]. rewrite andb_true_r.
  destruct (isalpha c); reflexivity.
Qed.

(** A string the username pattern matches starts with an ASCII letter, on
    which [isalpha] holds. *)
Lemma username_match_isalpha (s : str) :
  bool_ (match_ Pattern.username s) = true -> isalpha (hd 0%N s) = true.
Proof.
  intros H. apply match_accepts in H. cbn [Pattern.username accepts] in H.
  destruct H as (_ & c & r & -> & Hc & _).
  rewrite letter_set_mem in Hc. apply isalpha_ascii. assumption.
Qed.

Lemma validate_username_true (s : str) :
  call (validate_username isalpha s) = Return true <->
  3 <= List.length s <= 20 /\
  (Spec.username_shape s = true \/
   exists s0, s = s0 ++ [newline] /\ Spec.username_shape s0 = true).
Proof.
  rewrite validate_username_call, <- username_accepts, <- match_accepts, Return_eq.
  split.
  - intros H.
    apply andb_prop in H. destruct H as [H Hm].
    apply andb_prop in H. destruct H as [H _].
    apply andb_prop in H. destruct H as [H3 H20].
    apply Nat.leb_le in H3, H20. auto.
  - intros [[H3 H20] Hm].
    apply Nat.leb_le in H3, H20.
    rewrite H3, H20, (username_match_isalpha _ Hm), Hm. reflexivity.
Qed.

(** *** The claims of the specification *)

Lemma email_shape_no_newline (s : str) :
  Spec.email_shape s -> forallb (fun c => negb (N.eqb c newline)) s = true.
Proof.
  assert (Hcls : forall f : codepoint -> bool, f newline = false ->
            forall w, forallb f w = true ->
            forallb (fun c => negb (N.eqb c newline)) w = true).
  { intros f Hf w. induction w as [|c w IH]; simpl; [reflexivity|].
    intros H. apply andb_prop in H. destruct H as [Hc Hw].
    rewrite (IH Hw), andb_true_r.
    destruct (N.eqb_spec c newline) as [->|]; [congruence|reflexivity]. }
  intros (l & d & t & -> & _ & Hl & _ & Hd & _ & Ht).
  rewrite forallb_app. cbn [forallb]. rewrite forallb_app. cbn [forallb].
  repeat (apply andb_true_intro; split); try reflexivity.
  - exact (Hcls _ eq_refl _ Hl).
  - exact (Hcls _ eq_refl _ Hd).
  - exact (Hcls _ eq_refl _ Ht).
Qed.

(** C1. For every string, [validate_password] gives the outcome of the
    five rules taken in their priority order (empty; shorter than 8; no
    [A-Z]; no [a-z]; no decimal digit): false with the reason of the first
    rule that fails, and true with "Password is valid" when none fails. *)
Theorem validate_password_priority (s : str) :
  call (validate_password isdecimal s) =
  Return (Spec.password_result isdecimal s).
Proof. apply validate_password_call. Qed.

(** C2 (the code departs from the claim). On "user@example.com" followed by
    a newline [validate_email] returns true, although the whole string does
    not have the shape of the pattern: [$] also matches before a final
    newline. *)
Theorem validate_email_trailing_newline :
  call (validate_email (lit "user@example.com" ++ [newline])) = Return true /\
  ~ Spec.email_shape (lit "user@example.com" ++ [newline]).
Proof.
  split; [reflexivity|].
  intros H. apply email_shape_no_newline in H. vm_compute in H. discriminate.
Qed.

(** C3 (the code departs from the claim). On "abc" followed by a newline,
    of length 4, [validate_username] returns true, although the newline is
    none of the characters a username may have. *)
Theorem validate_username_trailing_newline :
  call (validate_username isalpha (lit "abc" ++ [newline])) = Return true /\
  Spec.username_shape (lit "abc" ++ [newline]) = false.
Proof.
  split; [|reflexivity].
  apply validate_username_true. split; [simpl; lia|].
  right. exists (lit "abc"). split; reflexivity.
Qed.

(** C4. On every string and every receiver, [validate_username] behaves as
    its variant without the test of [username[0].isalpha()]. *)
Theorem validate_username_isalpha_redundant (s : str) (self : Validator) :
  validate_username isalpha s self = validate_username_collapsed s self.
Proof.
  unfold validate_username, validate_username_collapsed.
  destruct s as [|c s]; [reflexivity|].
  cbn [str_bool negb getitem nth_error].
  destruct ((len (c :: s) <? 3)%Z || (len (c :: s) >? 20)%Z); [reflexivity|].
  unfold bind, ret, str_isalpha. cbn [str_bool forallb andb].
  rewrite andb_true_r.
  destruct (isalpha c) eqn:Hc; [reflexivity|]. cbn [negb].
  destruct (bool_ (match_ Pattern.username (c :: s))) eqn:Hm; [|reflexivity].
  apply username_match_isalpha in Hm. simpl in Hm. congruence.
Qed.

(** C5. On every string and every receiver each of the three methods
    returns a value and raises nothing; and the reason [validate_password]
    gives is one of the five messages of a rejection or "Password is
    valid". *)
Theorem validators_total :
  (forall s self, exists b, fst (validate_email s self) = Return b) /\
  (forall s self, exists r, fst (validate_password isdecimal s self) = Return r) /\
  (forall s self, exists b, fst (validate_username isalpha s self) = Return b) /\
  (forall s, exists b reason,
      call (validate_password isdecimal s) = Return (b, reason) /\
      In reason Spec.reasons).
Proof.
  repeat split.
  - intros s self. destruct (validate_email_returns s self) as [b H].
    exists b. rewrite H. reflexivity.
  - intros s self. destruct (validate_password_returns s self) as [r H].
    exists r. rewrite H. reflexivity.
  - intros s self. destruct (validate_username_returns s self) as [b H].
    exists b. rewrite H. reflexivity.
  - intros s. rewrite validate_password_call.
    unfold Spec.password_result, Spec.password_rules, Spec.first_failure,
      Spec.reasons.
    repeat match goal with
           | |- context [if ?b then _ else _] => destruct b
           end; do 2 eexists; (split; [reflexivity|]); simpl; tauto.
Qed.

(** C6. [validate_password] answers (false, "Password cannot be empty")
    exactly on the empty string. *)
Theorem validate_password_empty_iff (s : str) :
  call (validate_password isdecimal s) =
    Return (false, lit "Password cannot be empty") <->
  s = [].
Proof.
  rewrite validate_password_call, Return_eq. split.
  - destruct s as [|c s]; [reflexivity|].
    unfold Spec.password_result, Spec.password_rules, Spec.first_failure.
    replace (Nat.eqb (List.length (c :: s)) 0) with false by reflexivity.
    repeat match goal with
           | |- context [if ?b then _ else _] => destruct b
           end; intros H; vm_compute in H; discriminate.
  - intros ->. reflexivity.
Qed.

(** C7. A password of exactly 8 characters with an uppercase letter, a
    lowercase letter and a decimal digit is accepted; a non-empty password
    of at most 7 characters is rejected for its length, whatever its
    characters. *)
Theorem validate_password_length_boundary (s : str) :
  (List.length s = 8 ->
   existsb Spec.is_upper s = true ->
   existsb Spec.is_lower s = true ->
   existsb isdecimal s = true ->
   call (validate_password isdecimal s) = Return (true, lit "Password is valid")) /\
  (1 <= List.length s <= 7 ->
   call (validate_password isdecimal s) =
     Return (false, lit "Password must be at least 8 characters")).
Proof.
  rewrite validate_password_call.
  unfold Spec.password_result, Spec.password_rules, Spec.first_failure.
  split.
  - intros H8 Hu Hl Hd. rewrite H8, Hu, Hl, Hd. reflexivity.
  - intros [H1 H7].
    destruct (Nat.eqb_spec (List.length s) 0) as [H0|_]; [lia|].
    destruct (Nat.ltb_spec (List.length s) 8); [reflexivity|lia].
Qed.

(** C8. A username of exactly 3 or exactly 20 characters that is a letter
    followed by letters, digits, underscores and hyphens is accepted; a
    username of 2 or of 21 characters is rejected. *)
Theorem validate_username_length_boundary (s : str) :
  ((List.length s = 3 \/ List.length s = 20) ->
   Spec.username_shape s = true ->
   call (validate_username isalpha s) = Return true) /\
  ((List.length s = 2 \/ List.length s = 21) ->
   call (validate_username isalpha s) = Return false).
Proof.
  split.
  - intros Hlen Hshape. apply validate_username_true. split; [lia|auto].
  - intros Hlen. rewrite validate_username_call.
    destruct Hlen as [-> | ->]; reflexivity.
Qed.

(** C9. Calling a method twice in a row with the same argument gives the
    same outcome both times, whatever the receiver. *)
Theorem validators_deterministic (s : str) (self : Validator) :
  (exists r, twice (validate_email s) self = (r, r)) /\
  (exists r, twice (validate_password isdecimal s) self = (r, r)) /\
  (exists r, twice (validate_username isalpha s) self = (r, r)).
Proof.
  repeat split; apply twice_same.
  - apply validate_email_returns.
  - apply validate_password_returns.
  - apply validate_username_returns.
Qed.

(** C10, as stated, fails: "a@b.co" with one newline is accepted, and with
    a second newline it is rejected. *)
Lemma validate_email_second_newline :
  ~ (forall s, call (validate_email s) = Return true ->
               call (validate_email (s ++ [newline])) = Return true).
Proof.
  intros H. specialize (H (lit "a@b.co" ++ [newline]) eq_refl).
  vm_compute in H. discriminate.
Qed.

(** C10, amended. If [validate_email] accepts a string that does not end
    in a newline, it also accepts that string followed by one newline. *)
Theorem validate_email_one_newline (s : str) :
  call (validate_email s) = Return true ->
  N.eqb (last s 0%N) newline = false ->
  call (validate_email (s ++ [newline])) = Return true.
Proof.
  intros H Hlast. apply validate_email_true in H. apply validate_email_true.
  destruct H as [H | (s0 & -> & _)].
  - right. exists s. auto.
  - rewrite last_last in Hlast. discriminate.
Qed.

(** The second half of C7 read with the digits [0]-[9]: it holds as soon
    as the class [\d] has them. *)
Lemma validate_password_ascii_digit (s : str) :
  (forall c, Spec.is_digit09 c = true -> isdecimal c = true) ->
  List.length s = 8 ->
  existsb Spec.is_upper s = true ->
  existsb Spec.is_lower s = true ->
  existsb Spec.is_digit09 s = true ->
  call (validate_password isdecimal s) = Return (true, lit "Password is valid").
Proof.
  intros Hdec H8 Hu Hl Hd. rewrite validate_password_call.
  unfold Spec.password_result, Spec.password_rules, Spec.first_failure.
  rewrite H8, Hu, Hl.
  replace (existsb isdecimal s) with true; [reflexivity|].
  symmetry. apply existsb_exists. apply existsb_exists in Hd.
  destruct Hd as (c & Hin & Hc). exists c. auto.
Qed.

(** *** Further properties of [validate_password] *)

(** What [validate_password] computes on any receiver: the five tests in
    the order of the source, over the characters of the password. *)
Lemma validate_password_run (s : str) (self : Validator) :
  validate_password isdecimal s self =
  (Return
     (if negb (str_bool s) then (false, lit "Password cannot be empty")
      else if (len s <? MIN_PASSWORD_LENGTH self)%Z then
        (false,
         lit "Password must be at least " ++
           str_of_int (MIN_PASSWORD_LENGTH self) ++ lit " characters")
      else if negb (existsb Spec.is_upper s) then
        (false, lit "Password must contain at least one uppercase letter")
      else if negb (existsb Spec.is_lower s) then
        (false, lit "Password must contain at least one lowercase letter")
      else if negb (existsb isdecimal s) then
        (false, lit "Password must contain at least one digit")
      else (true, lit "Password is valid")),
   self).
Proof.
  unfold validate_password. destruct (negb (str_bool s)); [reflexivity|].
  unfold bind, getattr, search, Pattern.has_upper, Pattern.has_lower,
    Pattern.has_digit.
  rewrite !search_one.
  rewrite (existsb_eq _ _ upper_mem), (existsb_eq _ _ lower_mem),
    (existsb_eq _ _ digit_mem).
  destruct (len s <? MIN_PASSWORD_LENGTH self)%Z; [reflexivity|].
  destruct (existsb Spec.is_upper s); [|reflexivity].
  destruct (existsb Spec.is_lower s); [|reflexivity].
  destruct (existsb isdecimal s); reflexivity.
Qed.

(** The message about the length starts differently from the message of a
    valid or of an empty password, whatever the number in it. *)
Lemma length_message_differs (n tail : str) :
  lit "Password must be at least " ++ n ++ tail <> lit "Password is valid" /\
  lit "Password must be at least " ++ n ++ tail <> lit "Password cannot be empty".
Proof.
  split; intros H; apply (f_equal (firstn 10)) in H; vm_compute in H;
    discriminate.
Qed.

Lemma validate_password_accepts (s : str) (self : Validator) :
  (exists reason, fst (validate_password isdecimal s self) = Return (true, reason)) <->
  s <> [] /\ (MIN_PASSWORD_LENGTH self <= len s)%Z /\
  existsb Spec.is_upper s = true /\ existsb Spec.is_lower s = true /\
  existsb isdecimal s = true.
Proof.
  rewrite validate_password_run. cbn [fst].
  destruct s as [|c s]; cbn [str_bool negb].
  - split; [intros [r H]; discriminate | intros [H _]; congruence].
  - destruct (Z.ltb_spec (len (c :: s)) (MIN_PASSWORD_LENGTH self)).
    { split; [intros [r Hr]; discriminate | intros (_ & Hn & _); lia]. }
    destruct (existsb Spec.is_upper (c :: s));
      [|split; [intros [r Hr]; discriminate | intros (_ & _ & Hu & _); discriminate]].
    destruct (existsb Spec.is_lower (c :: s));
      [|split; [intros [r Hr]; discriminate | intros (_ & _ & _ & Hl & _); discriminate]].
    destruct (existsb isdecimal (c :: s));
      [|split; [intros [r Hr]; discriminate | intros (_ & _ & _ & _ & Hd); discriminate]].
    cbn [negb]. split; [|eexists; reflexivity].
    intros _. repeat split; auto. discriminate.
Qed.

Lemma existsb_Permutation {A} (f : A -> bool) (l l' : list A) :
  Permutation l l' -> existsb f l = existsb f l'.
Proof.
  induction 1 as [|x l l' _ IH|x y l|l l' l'' _ IH1 _ IH2]; simpl.
  - reflexivity.
  - rewrite IH. reflexivity.
  - destruct (f x), (f y); reflexivity.
  - congruence.
Qed.

(** X1. On any receiver a password is accepted exactly when it is not
    empty, has at least [MIN_PASSWORD_LENGTH] characters, and has a
    character of [A-Z], one of [a-z] and one of the class [\d]. *)
Theorem validate_password_accept_set (s : str) (self : Validator) :
  (exists reason, fst (validate_password isdecimal s self) = Return (true, reason)) <->
  s <> [] /\ (MIN_PASSWORD_LENGTH self <= len s)%Z /\
  existsb Spec.is_upper s = true /\ existsb Spec.is_lower s = true /\
  existsb isdecimal s = true.
Proof. apply validate_password_accepts. Qed.

(** X2. On [Validator()] each reason of a rejection names the first rule
    that fails: the length message is given exactly for 1 to 7 characters,
    the uppercase message exactly for 8 or more characters without [A-Z],
    the lowercase message exactly when moreover [A-Z] occurs and [a-z]
    does not, the digit message exactly when only a digit is missing. *)
Theorem validate_password_reason_decodes (s : str) :
  (call (validate_password isdecimal s) =
     Return (false, lit "Password must be at least 8 characters") <->
   1 <= List.length s <= 7) /\
  (call (validate_password isdecimal s) =
     Return (false, lit "Password must contain at least one uppercase letter") <->
   8 <= List.length s /\ existsb Spec.is_upper s = false) /\
  (call (validate_password isdecimal s) =
     Return (false, lit "Password must contain at least one lowercase letter") <->
   8 <= List.length s /\ existsb Spec.is_upper s = true /\
   existsb Spec.is_lower s = false) /\
  (call (validate_password isdecimal s) =
     Return (false, lit "Password must contain at least one digit") <->
   8 <= List.length s /\ existsb Spec.is_upper s = true /\
   existsb Spec.is_lower s = true /\ existsb isdecimal s = false).
Proof.
  rewrite validate_password_call, !Return_eq.
  unfold Spec.password_result, Spec.password_rules, Spec.first_failure.
  destruct (Nat.eqb_spec (List.length s) 0) as [H0|H0];
    [|destruct (Nat.ltb_spec (List.length s) 8) as [H8|H8];
      [|destruct (existsb Spec.is_upper s), (existsb Spec.is_lower s),
          (existsb isdecimal s); cbn [negb]]];
    (split; [|split; [|split]]);
    (split; intros H;
     [ first [ solve [repeat (split; try lia; try reflexivity)]
             | (vm_compute in H; discriminate) ]
     | first [ reflexivity
             | solve [exfalso; intuition (first [lia | discriminate])] ] ]).
Qed.

(** X3. On any receiver the flag and the reason agree: the flag is true
    exactly when the reason is "Password is valid". *)
Theorem validate_password_flag_reason (s : str) (self : Validator) (b : bool) (reason : str) :
  fst (validate_password isdecimal s self) = Return (b, reason) ->
  (b = true <-> reason = lit "Password is valid").
Proof.
  rewrite validate_password_run. cbn [fst].
  destruct (length_message_differs (str_of_int (MIN_PASSWORD_LENGTH self))
              (lit " characters")) as [Hv _].
  repeat match goal with
         | |- context [if ?c then _ else _] => destruct c
         end; intros Hr; injection Hr as <- <-; split; intros H;
    try reflexivity; try discriminate; try contradiction;
    vm_compute in H; discriminate.
Qed.

(** X4. On any receiver "Password cannot be empty" is the reason exactly
    for the empty string, whatever [MIN_PASSWORD_LENGTH] is. *)
Theorem validate_password_empty_any_receiver (s : str) (self : Validator) :
  fst (validate_password isdecimal s self) =
    Return (false, lit "Password cannot be empty") <->
  s = [].
Proof.
  rewrite validate_password_run. cbn [fst]. split.
  - destruct s as [|c s]; [reflexivity|]. cbn [str_bool negb].
    destruct (length_message_differs (str_of_int (MIN_PASSWORD_LENGTH self))
                (lit " characters")) as [_ He].
    repeat match goal with
           | |- context [if ?c then _ else _] => destruct c
           end; intros Hr; injection Hr as H; try contradiction;
      vm_compute in H; discriminate.
  - intros ->. reflexivity.
Qed.

(** X5. The outcome depends on the characters only, not on their order:
    a password and any rearrangement of it get the same answer. *)
Theorem validate_password_Permutation (s s' : str) (self : Validator) :
  Permutation s s' ->
  validate_password isdecimal s self = validate_password isdecimal s' self.
Proof.
  intros H. rewrite !validate_password_run.
  rewrite (existsb_Permutation Spec.is_upper H),
    (existsb_Permutation Spec.is_lower H), (existsb_Permutation isdecimal H).
  unfold len. rewrite (Permutation_length H).
  replace (str_bool s) with (str_bool s'); [reflexivity|].
  destruct s, s'; try reflexivity.
  - apply Permutation_nil in H. discriminate.
  - apply Permutation_sym, Permutation_nil in H. discriminate.
Qed.

(** X6. An accepted password stays accepted when characters are added
    before and after it. *)
Theorem validate_password_extend (s before after : str) (self : Validator) :
  (exists reason, fst (validate_password isdecimal s self) = Return (true, reason)) ->
  exists reason,
    fst (validate_password isdecimal (before ++ s ++ after) self) = Return (true, reason).
Proof.
  rewrite !validate_password_accepts.
  intros (Hne & Hlen & Hu & Hl & Hd).
  rewrite !existsb_app, Hu, Hl, Hd, !orb_true_r. repeat split; auto.
  - intros H. apply app_eq_nil in H. destruct H as [_ H].
    apply app_eq_nil in H. destruct H as [H _]. contradiction.
  - unfold len in *. rewrite !length_app. lia.
Qed.

(** X7. A password rejected on [Validator()] for the lack of a digit is
    accepted once a character of the class [\d] is appended. *)
Theorem validate_password_add_digit (s : str) (d : codepoint) :
  call (validate_password isdecimal s) =
    Return (false, lit "Password must contain at least one digit") ->
  isdecimal d = true ->
  call (validate_password isdecimal (s ++ [d])) = Return (true, lit "Password is valid").
Proof.
  rewrite !validate_password_call.
  unfold Spec.password_result, Spec.password_rules, Spec.first_failure.
  intros H Hd. rewrite !existsb_app, length_app. cbn [existsb List.length].
  rewrite Hd, orb_true_r.
  destruct (Nat.eqb_spec (List.length s) 0) as [H0|H0];
    [vm_compute in H; discriminate|].
  destruct (Nat.ltb_spec (List.length s) 8) as [H8|H8];
    [vm_compute in H; discriminate|].
  destruct (existsb Spec.is_upper s); [|vm_compute in H; discriminate].
  destruct (existsb Spec.is_lower s); [|vm_compute in H; discriminate].
  destruct (Nat.eqb_spec (List.length s + 1) 0) as [H0'|_]; [lia|].
  destruct (Nat.ltb_spec (List.length s + 1) 8) as [H8'|_]; [lia|].
  reflexivity.
Qed.

(** *** Further properties of [validate_email] and [validate_username] *)

Lemma forallb_impl {A} (f g : A -> bool) :
  (forall a, f a = true -> g a = true) ->
  forall l, forallb f l = true -> forallb g l = true.
Proof.
  intros Hfg l. induction l as [|a l IH]; simpl; [reflexivity|].
  intros H. apply andb_prop in H. destruct H as [Ha Hl].
  rewrite (Hfg _ Ha), (IH Hl). reflexivity.
Qed.

Lemma count_occ_class (f : codepoint -> bool) (x : codepoint) :
  f x = false -> forall w, forallb f w = true -> count_occ N.eq_dec w x = 0.
Proof.
  intros Hx w. induction w as [|c w IH]; simpl; [reflexivity|].
  intros H. apply andb_prop in H. destruct H as [Hc Hw].
  destruct (N.eq_dec c x) as [->|_]; [congruence|]. apply IH. assumption.
Qed.

Ltac split_class H :=
  repeat match type of H with
         | (_ || _) = true => apply orb_prop in H; destruct H as [H|H]
         end.

(** The characters of the four sets are ASCII. *)
Lemma class_ascii (c : codepoint) :
  Spec.local_char c = true \/ Spec.domain_char c = true \/
  Spec.word_char c = true \/ Spec.is_letter c = true ->
  N.ltb c 128 = true.
Proof.
  intros H. apply N.ltb_lt.
  unfold Spec.local_char, Spec.domain_char, Spec.word_char, Spec.is_letter,
    Spec.is_upper, Spec.is_lower, Spec.is_digit09, Spec.one_of, Spec.between in H.
  cbn in H.
  destruct H as [H|[H|[H|H]]]; split_class H; try discriminate;
    try (apply andb_prop in H; destruct H as [_ H]; apply N.leb_le in H; lia);
    apply N.eqb_eq in H; subst c; lia.
Qed.

Lemma letter_is_domain (c : codepoint) :
  Spec.is_letter c = true -> Spec.domain_char c = true.
Proof. unfold Spec.domain_char. intros ->. reflexivity. Qed.

(** An accepted email, taken apart. *)
Lemma validate_email_parts (s : str) :
  call (validate_email s) = Return true ->
  exists l d t tail,
    s = l ++ cp "@" :: d ++ cp "." :: t ++ tail /\
    1 <= List.length l /\ forallb Spec.local_char l = true /\
    1 <= List.length d /\ forallb Spec.domain_char d = true /\
    2 <= List.length t /\ forallb Spec.is_letter t = true /\
    (tail = [] \/ tail = [newline]).
Proof.
  intros H. apply validate_email_true in H.
  destruct H as [(l & d & t & -> & H) | (s0 & -> & (l & d & t & -> & H))];
    exists l, d, t.
  - exists []. rewrite app_nil_r. tauto.
  - exists [newline]. split; [|tauto].
    rewrite <- !app_assoc. simpl. rewrite <- !app_assoc. reflexivity.
Qed.

(** An accepted username, taken apart (whatever [isalpha] is). *)
Lemma validate_username_parts (s : str) :
  call (validate_username isalpha s) = Return true ->
  3 <= List.length s <= 20 /\
  exists c rest tail,
    s = c :: rest ++ tail /\ Spec.is_letter c = true /\
    forallb Spec.word_char rest = true /\ (tail = [] \/ tail = [newline]).
Proof.
  rewrite validate_username_call, Return_eq. intros H.
  apply andb_prop in H. destruct H as [H Hm].
  apply andb_prop in H. destruct H as [H _].
  apply andb_prop in H. destruct H as [H3 H20].
  apply Nat.leb_le in H3, H20. split; [lia|].
  apply match_accepts, username_accepts in Hm.
  destruct Hm as [Hs | (s0 & -> & Hs)].
  - destruct s as [|c rest]; [discriminate|]. simpl in Hs.
    apply andb_prop in Hs. destruct Hs as [Hc Hr].
    exists c, rest, []. rewrite app_nil_r. auto.
  - destruct s0 as [|c rest]; [discriminate|]. simpl in Hs.
    apply andb_prop in Hs. destruct Hs as [Hc Hr].
    exists c, rest, [newline]. auto.
Qed.

Lemma count_at_tail (tail : str) :
  tail = [] \/ tail = [newline] -> count_occ N.eq_dec tail (cp "@") = 0.
Proof. intros [-> | ->]; reflexivity. Qed.

Lemma validate_email_one_at (s : str) :
  call (validate_email s) = Return true ->
  count_occ N.eq_dec s (cp "@") = 1.
Proof.
  intros H. apply validate_email_parts in H.
  destruct H as (l & d & t & tail & -> & _ & Hl & _ & Hd & _ & Ht & Htail).
  rewrite count_occ_app, count_occ_cons_eq by reflexivity.
  rewrite count_occ_app, count_occ_cons_neq by discriminate.
  rewrite count_occ_app.
  pose proof (count_occ_class Spec.local_char (cp "@") eq_refl _ Hl) as El.
  pose proof (count_occ_class Spec.domain_char (cp "@") eq_refl _ Hd) as Ed.
  pose proof (count_occ_class Spec.is_letter (cp "@") eq_refl _ Ht) as Et.
  pose proof (count_at_tail Htail) as Etail.
  unfold codepoint in *. rewrite El, Ed, Et, Etail. reflexivity.
Qed.

(** X8. [validate_email] on [Validator()] accepts exactly the strings
    made of one or more characters of [[A-Za-z0-9._%+-]], an [@], one or
    more characters of [[A-Za-z0-9.-]], a dot and two or more letters,
    and those strings followed by one newline. *)
Theorem validate_email_accept_set (s : str) :
  call (validate_email s) = Return true <->
  Spec.email_shape s \/ exists s0, s = s0 ++ [newline] /\ Spec.email_shape s0.
Proof. apply validate_email_true. Qed.

(** X9. [validate_username] on [Validator()] accepts exactly the strings
    of 3 to 20 characters that are a letter followed by letters, digits,
    underscores and hyphens, or such a string followed by one newline
    (which counts in the length). *)
Theorem validate_username_accept_set (s : str) :
  call (validate_username isalpha s) = Return true <->
  3 <= List.length s <= 20 /\
  (Spec.username_shape s = true \/
   exists s0, s = s0 ++ [newline] /\ Spec.username_shape s0 = true).
Proof. apply validate_username_true. Qed.

(** X10. An accepted email has exactly one [@]. *)
Theorem validate_email_single_at (s : str) :
  call (validate_email s) = Return true ->
  count_occ N.eq_dec s (cp "@") = 1.
Proof. apply validate_email_one_at. Qed.

(** X11. An accepted email has ASCII characters only. *)
Theorem validate_email_ascii (s : str) :
  call (validate_email s) = Return true ->
  forallb (fun c => N.ltb c 128) s = true.
Proof.
  intros H. apply validate_email_parts in H.
  destruct H as (l & d & t & tail & -> & _ & Hl & _ & Hd & _ & Ht & Htail).
  rewrite forallb_app. cbn [forallb]. rewrite forallb_app. cbn [forallb].
  rewrite forallb_app.
  repeat (apply andb_true_intro; split); try reflexivity.
  - revert Hl. apply forallb_impl. intros c Hc. apply class_ascii. auto.
  - revert Hd. apply forallb_impl. intros c Hc. apply class_ascii. auto.
  - revert Ht. apply forallb_impl. intros c Hc. apply class_ascii. auto.
  - destruct Htail as [-> | ->]; reflexivity.
Qed.

(** X12. An accepted username has ASCII characters only, although
    [isalpha] holds of letters outside ASCII too. *)
Theorem validate_username_ascii (s : str) :
  call (validate_username isalpha s) = Return true ->
  forallb (fun c => N.ltb c 128) s = true.
Proof.
  intros H. apply validate_username_parts in H.
  destruct H as (_ & c & rest & tail & -> & Hc & Hr & Htail).
  cbn [forallb]. rewrite forallb_app.
  repeat (apply andb_true_intro; split).
  - apply class_ascii. auto.
  - revert Hr. apply forallb_impl. intros c' Hc'. apply class_ascii. auto.
  - destruct Htail as [-> | ->]; reflexivity.
Qed.

(** X13. An accepted email has at least 6 characters, and "a@b.cd" is
    accepted. *)
Theorem validate_email_min_length :
  (forall s, call (validate_email s) = Return true -> 6 <= List.length s) /\
  call (validate_email (lit "a@b.cd")) = Return true.
Proof.
  split; [|reflexivity].
  intros s H. apply validate_email_parts in H.
  destruct H as (l & d & t & tail & -> & Hl & _ & Hd & _ & Ht & _).
  rewrite length_app. cbn [List.length]. rewrite length_app. cbn [List.length].
  rewrite length_app. lia.
Qed.

(** X14. No string is both an accepted email and an accepted username. *)
Theorem validate_email_not_username (s : str) :
  call (validate_email s) = Return true ->
  call (validate_username isalpha s) = Return false.
Proof.
  intros He. apply validate_email_one_at in He.
  destruct (validate_username_returns s Validator_new) as [b Hb].
  unfold call at 1. rewrite Hb. cbn [fst]. destruct b; [|reflexivity].
  exfalso.
  assert (Hu : call (validate_username isalpha s) = Return true)
    by (unfold call; rewrite Hb; reflexivity).
  apply validate_username_parts in Hu.
  destruct Hu as (_ & c & rest & tail & -> & Hc & Hr & Htail).
  assert (Hc0 : c <> cp "@") by (intros ->; discriminate).
  rewrite count_occ_cons_neq, count_occ_app in He by assumption.
  pose proof (count_occ_class Spec.word_char (cp "@") eq_refl _ Hr) as Er.
  pose proof (count_at_tail Htail) as Etail.
  unfold codepoint in *. rewrite Er, Etail in He. discriminate.
Qed.

(** X15. An accepted email stays accepted when a character of
    [[A-Za-z0-9._%+-]] is put in front of it. *)
Theorem validate_email_prepend (s : str) (c : codepoint) :
  call (validate_email s) = Return true ->
  Spec.local_char c = true ->
  call (validate_email (c :: s)) = Return true.
Proof.
  intros H Hc. apply validate_email_true in H. apply validate_email_true.
  assert (Hgrow : forall s0, Spec.email_shape s0 -> Spec.email_shape (c :: s0)).
  { intros s0 (l & d & t & -> & Hl1 & Hl & Hrest).
    exists (c :: l), d, t. simpl. rewrite Hc, Hl.
    split; [reflexivity|]. split; [lia|]. split; [reflexivity|]. exact Hrest. }
  destruct H as [H | (s0 & -> & H)].
  - left. auto.
  - right. exists (c :: s0). auto.
Qed.

(** X16. An accepted email that does not end in a newline stays accepted
    when a dot and two or more letters are appended: a further label of
    the domain. *)
Theorem validate_email_append_label (s t : str) :
  call (validate_email s) = Return true ->
  N.eqb (last s 0%N) newline = false ->
  2 <= List.length t ->
  forallb Spec.is_letter t = true ->
  call (validate_email (s ++ cp "." :: t)) = Return true.
Proof.
  intros H Hlast Ht2 Ht. apply validate_email_true in H. apply validate_email_true.
  destruct H as [(l & d & t0 & -> & Hl1 & Hl & Hd1 & Hd & Ht02 & Ht0) | (s0 & -> & _)].
  - left. exists l, (d ++ cp "." :: t0), t. split.
    { rewrite <- !app_assoc. simpl. rewrite <- !app_assoc. reflexivity. }
    rewrite length_app, forallb_app. cbn [forallb]. rewrite Hd.
    rewrite (forallb_impl _ _ letter_is_domain _ Ht0).
    repeat split; auto. lia.
  - rewrite last_last in Hlast. discriminate.
Qed.

Lemma forallb_firstn {A} (f : A -> bool) (n : nat) (l : list A) :
  forallb f l = true -> forallb f (firstn n l) = true.
Proof.
  revert n. induction l as [|a l IH]; intros [|n]; simpl; auto.
  intros H. apply andb_prop in H. destruct H as [-> Hl]. simpl. auto.
Qed.

(** X17. The first [n] characters of an accepted username, for [n] at
    least 3, are an accepted username. *)
Theorem validate_username_prefix (s : str) (n : nat) :
  call (validate_username isalpha s) = Return true ->
  3 <= n ->
  call (validate_username isalpha (firstn n s)) = Return true.
Proof.
  intros H Hn. apply validate_username_true in H. apply validate_username_true.
  destruct H as [Hlen H]. split.
  { rewrite length_firstn. lia. }
  assert (Hcut : forall s0, Spec.username_shape s0 = true ->
            Spec.username_shape (firstn n s0) = true).
  { intros [|c rest]; [discriminate|]. destruct n as [|m]; [lia|].
    simpl. intros Hs. apply andb_prop in Hs. destruct Hs as [-> Hr].
    simpl. apply forallb_firstn. assumption. }
  destruct H as [H | (s0 & -> & H)].
  - left. auto.
  - rewrite firstn_app.
    destruct (Nat.le_gt_cases n (List.length s0)) as [Hle|Hgt].
    + left. replace (n - List.length s0) with 0 by lia.
      simpl. rewrite app_nil_r. auto.
    + right. exists s0. split; [|assumption].
      rewrite firstn_all2 by lia.
      destruct (n - List.length s0) as [|k] eqn:Hk; [lia|].
      simpl. rewrite firstn_nil. reflexivity.
Qed.

(** X18. An accepted username of fewer than 20 characters that does not
    end in a newline stays accepted when a letter, a digit, an underscore
    or a hyphen is appended. *)
Theorem validate_username_append (s : str) (c : codepoint) :
  call (validate_username isalpha s) = Return true ->
  N.eqb (last s 0%N) newline = false ->
  List.length s < 20 ->
  Spec.word_char c = true ->
  call (validate_username isalpha (s ++ [c])) = Return true.
Proof.
  intros H Hlast Hlen Hc. apply validate_username_true in H.
  apply validate_username_true. destruct H as [Hl H]. split.
  { rewrite length_app. simpl. lia. }
  destruct H as [H | (s0 & -> & _)].
  - left. destruct s as [|c0 rest]; [discriminate|]. simpl in *.
    apply andb_prop in H. destruct H as [-> Hr].
    rewrite forallb_app, Hr. simpl. rewrite Hc. reflexivity.
  - rewrite last_last in Hlast. discriminate.
Qed.

End Properties.

(** ** Instances on ASCII subjects *)

Lemma ascii_isalpha_letters :
  forall c, Spec.is_letter c = true -> ascii_isalpha c = true.
Proof. intros c H. exact H. Defined.

Lemma validate_username_trailing_newline_witness :
  (forall c, Spec.is_letter c = true -> ascii_isalpha c = true) /\
  call (validate_username ascii_isalpha (lit "abc" ++ [newline])) = Return true /\
  Spec.username_shape (lit "abc" ++ [newline]) = false.
Proof.
  split; [exact ascii_isalpha_letters|].
  exact (validate_username_trailing_newline ascii_isalpha ascii_isalpha_letters).
Defined.

Lemma validate_username_isalpha_redundant_witness :
  (forall c, Spec.is_letter c = true -> ascii_isalpha c = true) /\
  validate_username ascii_isalpha (lit "9lives") Validator_new =
  validate_username_collapsed (lit "9lives") Validator_new.
Proof.
  split; [exact ascii_isalpha_letters|].
  apply (validate_username_isalpha_redundant ascii_isalpha ascii_isalpha_letters).
Defined.

Lemma validate_password_length_boundary_witness :
  call (validate_password ascii_isdecimal (lit "Passw0rd")) =
    Return (true, lit "Password is valid") /\
  call (validate_password ascii_isdecimal (lit "Aa1bcde")) =
    Return (false, lit "Password must be at least 8 characters").
Proof.
  split.
  - apply (proj1 (validate_password_length_boundary ascii_isdecimal (lit "Passw0rd")));
      reflexivity.
  - apply (proj2 (validate_password_length_boundary ascii_isdecimal (lit "Aa1bcde"))).
    simpl. lia.
Defined.

Lemma validate_username_length_boundary_witness :
  call (validate_username ascii_isalpha (lit "a_1")) = Return true /\
  call (validate_username ascii_isalpha (lit "abcdefghij-0123456789")) = Return false.
Proof.
  split.
  - apply (proj1 (validate_username_length_boundary ascii_isalpha
                    ascii_isalpha_letters (lit "a_1"))).
    + left. reflexivity.
    + reflexivity.
  - apply (proj2 (validate_username_length_boundary ascii_isalpha
                    ascii_isalpha_letters (lit "abcdefghij-0123456789"))).
    right. reflexivity.
Defined.

Lemma validate_email_one_newline_witness :
  call (validate_email (lit "user@example.com")) = Return true /\
  N.eqb (last (lit "user@example.com") 0%N) newline = false /\
  call (validate_email (lit "user@example.com" ++ [newline])) = Return true.
Proof.
  split; [reflexivity|]. split; [reflexivity|].
  apply (validate_email_one_newline (lit "user@example.com")); reflexivity.
Defined.

(** ** Instances of the further properties *)

Lemma validate_password_flag_reason_witness :
  fst (validate_password ascii_isdecimal (lit "Pass1") Validator_new) =
    Return (false, lit "Password must be at least 8 characters") /\
  (false = true <-> lit "Password must be at least 8 characters" = lit "Password is valid").
Proof.
  split; [reflexivity|].
  apply (validate_password_flag_reason ascii_isdecimal (lit "Pass1") Validator_new).
  reflexivity.
Defined.

Lemma validate_password_Permutation_witness :
  Permutation (lit "Passw0rd") (rev (lit "Passw0rd")) /\
  validate_password ascii_isdecimal (lit "Passw0rd") Validator_new =
  validate_password ascii_isdecimal (rev (lit "Passw0rd")) Validator_new.
Proof.
  split; [apply Permutation_rev|].
  apply (validate_password_Permutation ascii_isdecimal (s := lit "Passw0rd")).
  apply Permutation_rev.
Defined.

Lemma validate_password_extend_witness :
  exists reason,
    fst (validate_password ascii_isdecimal (lit "--" ++ lit "Passw0rd" ++ lit "!")
           Validator_new) = Return (true, reason).
Proof.
  apply (validate_password_extend ascii_isdecimal (lit "Passw0rd") (lit "--") (lit "!")
           Validator_new).
  exists (lit "Password is valid"). reflexivity.
Defined.

Lemma validate_password_add_digit_witness :
  call (validate_password ascii_isdecimal (lit "Password" ++ [cp "7"])) =
  Return (true, lit "Password is valid").
Proof.
  apply (validate_password_add_digit ascii_isdecimal (lit "Password") (cp "7"));
    reflexivity.
Defined.

Lemma validate_username_accept_set_witness :
  call (validate_username ascii_isalpha (lit "user_1")) = Return true.
Proof.
  apply (proj2 (validate_username_accept_set ascii_isalpha ascii_isalpha_letters
                  (lit "user_1"))).
  split; [simpl; lia|]. left. reflexivity.
Defined.

Lemma validate_email_single_at_witness :
  count_occ N.eq_dec (lit "test.user@domain.co.uk") (cp "@") = 1.
Proof. apply (validate_email_single_at (lit "test.user@domain.co.uk")). reflexivity. Defined.

Lemma validate_email_ascii_witness :
  forallb (fun c => N.ltb c 128) (lit "user+tag@example.com") = true.
Proof. apply (validate_email_ascii (lit "user+tag@example.com")). reflexivity. Defined.

Lemma validate_username_ascii_witness :
  forallb (fun c => N.ltb c 128) (lit "User-Name") = true.
Proof.
  apply (validate_username_ascii ascii_isalpha (lit "User-Name")). reflexivity.
Defined.

Lemma validate_email_min_length_witness :
  6 <= List.length (lit "user@example.com").
Proof.
  apply (proj1 validate_email_min_length (lit "user@example.com")). reflexivity.
Defined.

Lemma validate_email_not_username_witness :
  call (validate_username ascii_isalpha (lit "user@example.com")) = Return false.
Proof.
  apply (validate_email_not_username ascii_isalpha (lit "user@example.com")).
  reflexivity.
Defined.

Lemma validate_email_prepend_witness :
  call (validate_email (cp "%" :: lit "user@example.com")) = Return true.
Proof.
  apply (validate_email_prepend (lit "user@example.com") (cp "%")); reflexivity.
Defined.

Lemma validate_email_append_label_witness :
  call (validate_email (lit "user@domain.co" ++ cp "." :: lit "uk")) = Return true.
Proof.
  apply (validate_email_append_label (lit "user@domain.co") (lit "uk"));
    reflexivity.
Defined.

Lemma validate_username_prefix_witness :
  call (validate_username ascii_isalpha (firstn 4 (lit "test_user"))) = Return true.
Proof.
  apply (validate_username_prefix ascii_isalpha ascii_isalpha_letters (lit "test_user")
           (n := 4)).
  - reflexivity.
  - lia.
Defined.

Lemma validate_username_append_witness :
  call (validate_username ascii_isalpha (lit "user123" ++ [cp "_"])) = Return true.
Proof.
  apply (validate_username_append ascii_isalpha ascii_isalpha_letters (lit "user123")
           (cp "_")); try reflexivity.
  simpl. lia.
Defined.

(** ** The cases of the test suite *)

Module Tests.

Example test_validate_email_valid :
  emails ["user@example.com"; "test.user@domain.co.uk"; "user+tag@example.com"]%string
  = [Return true; Return true; Return true].
Proof. reflexivity. Qed.

Example test_validate_email_invalid :
  emails [""; "notanemail"; "@example.com"; "user@"; "user@domain"]%string
  = [Return false; Return false; Return false; Return false; Return false].
Proof. reflexivity. Qed.

Example test_validate_password :
  passwords ["Password123"; ""; "Pass1"; "password123"; "PASSWORD123"; "Password"]%string
  = [Return (true, lit "Password is valid");
     Return (false, lit "Password cannot be empty");
     Return (false, lit "Password must be at least 8 characters");
     Return (false, lit "Password must contain at least one uppercase letter");
     Return (false, lit "Password must contain at least one lowercase letter");
     Return (false, lit "Password must contain at least one digit")].
Proof. reflexivity. Qed.

Example test_validate_username_valid :
  usernames ["user123"; "test_user"; "User-Name"]%string
  = [Return true; Return true; Return true].
Proof. reflexivity. Qed.

Example test_validate_username_invalid :
  usernames [""; "ab"; "aaaaaaaaaaaaaaaaaaaaa"; "123user"; "user@name"]%string
  = [Return false; Return false; Return false; Return false; Return false].
Proof. reflexivity. Qed.

End Tests.
